(** * BookingCalendar: the date / time-slot picker of the public booking page

    A shallow embedding of
    [src/pages/external_page/_components/booking-calendar.tsx]:
    the slot filter [timeSlots], the calendar predicate [isDateUnavailable],
    the handler [handleChangeDate] and the part of the rendered tree that
    depends on the selected slot.

    The component talks to collaborators that live outside this file:
    [CalendarDate.toDate] of @internationalized/date, [format] of date-fns,
    [formatSlot] / [decodeSlot] of @/lib/helper and the mutators returned by
    the hook [useBookingState].  They are Section variables below; what the
    component does with them is modelled as the source writes it. *)

From Stdlib Require Import String Ascii List Bool ZArith Lia DecimalString.
From Stdlib Require Import Permutation.
Import ListNotations.
Open Scope string_scope.
Open Scope list_scope.

Module BookingCalendar.

(** ** Data model *)

(** One element of the array answered by the availability query:
    [{ day: "MONDAY", isAvailable: true, slots: ["09:00", "10:00"] }]. *)
Record DayAvailability : Type := mkDay {
  day : string;
  isAvailable : bool;
  slots : list string
}.

(** [CalendarDate] of @internationalized/date: a date without a time. *)
Record CalendarDate : Type := mkDate {
  year : Z;
  month : Z;
  dayOfMonth : Z
}.

(** [hourType]: the string union ["12h" | "24h"]. *)
Inductive HourType : Type := h12 | h24.

Definition HourType_eqb (a b : HourType) : bool :=
  match a, b with
  | h12, h12 | h24, h24 => true
  | _, _ => false
  end.

(** What the component destructures from [useBookingState ()] and reads. *)
Record BookingState : Type := mkState {
  timezone : string;
  hourType : HourType;
  selectedDate : option CalendarDate;
  selectedSlot : option string
}.

(** The body of the query answer ([data?.data]) and what [useQuery] returns. *)
Record QueryResponse : Type := mkResponse {
  resp_data : option (list DayAvailability)
}.

Record QueryResult : Type := mkQuery {
  data : option QueryResponse;
  isFetching : bool;
  isError : bool;
  error : option string
}.

(** ** JavaScript operators used by the component *)

(** [o?.f]: [undefined] when [o] is, the field otherwise. *)
Definition optChain {A B : Type} (o : option A) (f : A -> B) : option B :=
  match o with
  | Some a => Some (f a)
  | None => None
  end.

(** [o?.f] for a field that may itself be missing. *)
Definition optChainOpt {A B : Type} (o : option A) (f : A -> option B)
  : option B :=
  match o with
  | Some a => f a
  | None => None
  end.

(** [x || []] on an array-or-undefined: every array, the empty one included,
    is truthy, so only [undefined] is replaced. *)
Definition orEmpty {A : Type} (o : option (list A)) : list A :=
  match o with
  | Some l => l
  | None => []
  end.

(** [!x] on a boolean-or-undefined: [undefined] is falsy. *)
Definition jsNot (o : option bool) : bool :=
  match o with
  | Some b => negb b
  | None => true
  end.

(** [a === b] where [a] is [string | null] and [b] a string. *)
Definition strictEq (a : option string) (b : string) : bool :=
  match a with
  | Some x => String.eqb x b
  | None => false
  end.

(** [String.prototype.toUpperCase] on the ASCII letters. *)
Definition upperAscii (c : ascii) : ascii :=
  let n := nat_of_ascii c in
  if andb (Nat.leb 97 n) (Nat.leb n 122) then ascii_of_nat (n - 32) else c.

Fixpoint toUpperCase (s : string) : string :=
  match s with
  | EmptyString => EmptyString
  | String c r => String (upperAscii c) (toUpperCase r)
  end.

(** [Array.prototype.map] with the index as second argument. *)
Fixpoint mapiFrom {A B : Type} (f : A -> nat -> B) (i : nat) (l : list A)
  : list B :=
  match l with
  | [] => []
  | a :: r => f a i :: mapiFrom f (S i) r
  end.

Definition mapi {A B : Type} (f : A -> nat -> B) (l : list A) : list B :=
  mapiFrom f 0 l.

(** ** Calls into the booking-state hook

    The component never writes the booking state itself: every handler is a
    sequence of calls to the mutators [useBookingState] returned.  A handler
    is the list of the calls it makes, in program order. *)
Inductive Call : Type :=
| CallSelectSlot (slot : option string)   (* handleSelectSlot(slot) *)
| CallSelectDate (date : CalendarDate)    (* handleSelectDate(date) *)
| CallSetHourType (h : HourType)          (* setHourType(h) *)
| CallNext.                               (* handleNext() *)

(** [const handleChangeDate = (newDate: DateValue) => { ... }] *)
Definition handleChangeDate (newDate : CalendarDate) : list Call :=
  let calendarDate := newDate in
  [CallSelectSlot None; CallSelectDate calendarDate].

(** ** The rendered tree, as far as it depends on data *)

(** One [<div role="list" key={i}>] of the slot list. *)
Record SlotItem : Type := mkItem {
  itemKey : nat;
  overlayClass : string;      (* the class switched on the Next overlay *)
  overlayLabel : string;      (* the disabled button inside the overlay *)
  onClickNext : list Call;
  buttonClass : string;       (* the class switched on the slot button *)
  buttonLabel : string;
  onClickSlot : list Call
}.

Record Panel : Type := mkPanel {
  heading : string;
  active12 : bool;
  onClick12 : list Call;
  active24 : bool;
  onClick24 : list Call;
  items : list SlotItem
}.

Record Props : Type := mkProps {
  eventId : string;
  minValue : option CalendarDate;
  defaultValue : option CalendarDate
}.

Record View : Type := mkView {
  loaderShown : bool;
  calMinValue : option CalendarDate;
  calDefaultValue : option CalendarDate;
  calValue : option CalendarDate;
  calTimezone : string;
  calOnChange : CalendarDate -> list Call;
  calIsDateUnavailable : CalendarDate -> bool;
  panel : option Panel;
  errorAlert : bool * option string
}.

(** A slot is displayed as selected when its overlay is slid in and its plain
    button is transparent. *)
Definition displayedSelected (it : SlotItem) : Prop :=
  overlayClass it = "translate-x-0 opacity-100" /\ buttonClass it = "opacity-0".

(** What the user can do on the rendered tree. *)
Inductive Event : Type :=
| ChangeDate (date : CalendarDate)
| ClickHour (h : HourType)
| ClickSlot (i : nat)
| ClickNext (i : nat).

(** ** Reading a schedule

    What "the first entry for a weekday" means, stated on the list itself
    and independently of how the component searches it. *)

Definition noEntryFor (dow : string) (l : list DayAvailability) : Prop :=
  Forall (fun d => day d <> dow) l.

Definition firstEntryFor (dow : string) (l : list DayAvailability)
  (e : DayAvailability) : Prop :=
  exists pre post, l = pre ++ e :: post /\ noEntryFor dow pre /\ day e = dow.

(** ** The pure part of the component *)

Section Component.

(** [Date], [date.toDate(timezone)] and date-fns' [format(date, pattern)]. *)
Variable JsDate : Type.
Variable toDate : CalendarDate -> string -> JsDate.
Variable format : JsDate -> string -> string.

(** [formatSlot] and [decodeSlot] of @/lib/helper. *)
Variable formatSlot : string -> string -> HourType -> string.
Variable decodeSlot : option string -> string -> HourType -> option string.

(** [format(date.toDate(timezone), "EEEE").toUpperCase()] *)
Definition dayOfWeek (date : CalendarDate) (tz : string) : string :=
  toUpperCase (format (toDate date tz) "EEEE").

(** [const availability = data?.data || [];] *)
Definition availability (q : QueryResult) : list DayAvailability :=
  orEmpty (optChainOpt (data q) resp_data).

(** [const timeSlots = selectedDate ? (() => { ... })() : [];] *)
Definition timeSlots (st : BookingState) (avail : list DayAvailability)
  : list string :=
  match selectedDate st with
  | Some sel =>
      let dow := dayOfWeek sel (timezone st) in
      let dayAvailability := find (fun d => String.eqb (day d) dow) avail in
      orEmpty (optChain dayAvailability slots)
  | None => []
  end.

(** [const isDateUnavailable = (date: DateValue) => { ... }] *)
Definition isDateUnavailable (st : BookingState)
  (avail : list DayAvailability) (date : CalendarDate) : bool :=
  let dow := dayOfWeek date (timezone st) in
  let dayAvailability := find (fun d => String.eqb (day d) dow) avail in
  jsNot (optChain dayAvailability isAvailable).

(** [const selectedTime = decodeSlot(selectedSlot, timezone, hourType);] *)
Definition selectedTime (st : BookingState) : option string :=
  decodeSlot (selectedSlot st) (timezone st) (hourType st).

(** The callback of [timeSlots.map((slot, i) => { ... })]. *)
Definition renderSlot (st : BookingState) (slot : string) (i : nat)
  : SlotItem :=
  let formattedSlot := formatSlot slot (timezone st) (hourType st) in
  {| itemKey := i;
     overlayClass :=
       if strictEq (selectedTime st) formattedSlot
       then "translate-x-0 opacity-100"
       else "translate-x-full opacity-0";
     overlayLabel := formattedSlot;
     onClickNext := [CallNext];
     buttonClass :=
       if strictEq (selectedTime st) formattedSlot
       then "opacity-0"
       else "opacity-100";
     buttonLabel := formattedSlot;
     onClickSlot := [CallSelectSlot (Some slot)] |}.

(** The slot buttons of the panel. *)
Definition slotItems (st : BookingState) (avail : list DayAvailability)
  : list SlotItem :=
  mapi (renderSlot st) (timeSlots st avail).

(** The returned tree.  In [selectedDate && availability ? ... : null] the
    array [availability] is always truthy, so the test is on the date. *)
Definition render (props : Props) (st : BookingState) (q : QueryResult)
  : View :=
  let avail := availability q in
  {| loaderShown := isFetching q;
     calMinValue := minValue props;
     calDefaultValue := defaultValue props;
     calValue := selectedDate st;
     calTimezone := timezone st;
     calOnChange := handleChangeDate;
     calIsDateUnavailable := isDateUnavailable st avail;
     panel :=
       match selectedDate st with
       | Some sel =>
           Some {| heading := format (toDate sel (timezone st)) "EEEE d";
                   active12 := HourType_eqb (hourType st) h12;
                   onClick12 := [CallSetHourType h12];
                   active24 := HourType_eqb (hourType st) h24;
                   onClick24 := [CallSetHourType h24];
                   items := slotItems st avail |}
       | None => None
       end;
     errorAlert := (isError q, error q) |}.

(** The handler the rendered tree attaches to an event, if the element that
    carries it is rendered. *)
Definition handlerOf (v : View) (e : Event) : option (list Call) :=
  match e with
  | ChangeDate d => Some (calOnChange v d)
  | ClickHour h =>
      optChain (panel v)
        (fun p => match h with h12 => onClick12 p | h24 => onClick24 p end)
  | ClickSlot i =>
      optChainOpt (panel v)
        (fun p => optChain (nth_error (items p) i) onClickSlot)
  | ClickNext i =>
      optChainOpt (panel v)
        (fun p => optChain (nth_error (items p) i) onClickNext)
  end.

(** *** Running handlers against the hook *)

Variable handleSelectDate : CalendarDate -> BookingState -> BookingState.
Variable handleSelectSlot : option string -> BookingState -> BookingState.
Variable handleNext : BookingState -> BookingState.
Variable setHourType : HourType -> BookingState -> BookingState.

Definition perform (c : Call) (st : BookingState) : BookingState :=
  match c with
  | CallSelectSlot s => handleSelectSlot s st
  | CallSelectDate d => handleSelectDate d st
  | CallSetHourType h => setHourType h st
  | CallNext => handleNext st
  end.

Definition run (cs : list Call) (st : BookingState) : BookingState :=
  fold_left (fun s c => perform c s) cs st.

(** One user event on the tree rendered from [st] and the query result. *)
Definition step (props : Props) (q : QueryResult) (st : BookingState)
  (e : Event) : option BookingState :=
  match handlerOf (render props st q) e with
  | Some cs => Some (run cs st)
  | None => None
  end.

(** A sequence of user events, the tree being rendered anew from the state
    each event left; an event on an element that is not rendered stops it. *)
Fixpoint steps (props : Props) (q : QueryResult) (st : BookingState)
  (es : list Event) : option BookingState :=
  match es with
  | [] => Some st
  | e :: r =>
      match step props q st e with
      | Some st' => steps props q st' r
      | None => None
      end
  end.

End Component.

Arguments dayOfWeek {JsDate} toDate format date tz.
Arguments timeSlots {JsDate} toDate format st avail.
Arguments isDateUnavailable {JsDate} toDate format st avail date.
Arguments slotItems {JsDate} toDate format formatSlot decodeSlot st avail.
Arguments render {JsDate} toDate format formatSlot decodeSlot props st q.
Arguments step {JsDate} toDate format formatSlot decodeSlot
  handleSelectDate handleSelectSlot handleNext setHourType props q st e.
Arguments steps {JsDate} toDate format formatSlot decodeSlot
  handleSelectDate handleSelectSlot handleNext setHourType props q st es.

(** ** The collaborators

    Concrete collaborators, so that the component can be evaluated on
    concrete schedules, dates and slots. *)

Module Collab.

(** *** Dates: the proleptic Gregorian calendar

    [toDate] keeps the calendar date and [format] names its weekday.
    [CalendarDate.toDate(tz)] is the instant of midnight in [tz] and
    date-fns formats an instant in the zone of the runtime, so this is the
    component only where the runtime formats in the booking zone.  It
    serves to evaluate the examples, all at zone UTC; no general theorem
    depends on it. *)

Definition daysFromCivil (d : CalendarDate) : Z :=
  let y := if (month d <=? 2)%Z then (year d - 1)%Z else year d in
  let era := (y / 400)%Z in
  let yoe := (y - era * 400)%Z in
  let mp := ((month d + 9) mod 12)%Z in
  let doy := ((153 * mp + 2) / 5 + dayOfMonth d - 1)%Z in
  let doe := (yoe * 365 + yoe / 4 - yoe / 100 + doy)%Z in
  (era * 146097 + doe - 719468)%Z.

Definition weekdayName (d : CalendarDate) : string :=
  match ((daysFromCivil d + 4) mod 7)%Z with
  | 0%Z => "Sunday"
  | 1%Z => "Monday"
  | 2%Z => "Tuesday"
  | 3%Z => "Wednesday"
  | 4%Z => "Thursday"
  | 5%Z => "Friday"
  | _ => "Saturday"
  end.

Definition natToString (n : nat) : string :=
  NilZero.string_of_uint (Nat.to_uint n).

Definition toDate (d : CalendarDate) (tz : string) : CalendarDate := d.

Definition format (d : CalendarDate) (pattern : string) : string :=
  if String.eqb pattern "EEEE" then weekdayName d
  else if String.eqb pattern "EEEE d"
       then weekdayName d ++ " " ++ natToString (Z.to_nat (dayOfMonth d))
       else pattern.

(** *** Slot helpers *)

(** Minutes east of UTC of the zones used in the examples. *)
Definition utcOffset (tz : string) : Z :=
  if String.eqb tz "America/Mexico_City" then (-360)%Z
  else if String.eqb tz "Asia/Tokyo" then 540%Z
  else 0%Z.

(** The text before and after the first colon. *)
Fixpoint splitColon (s : string) : option (string * string) :=
  match s with
  | EmptyString => None
  | String c r =>
      if Ascii.eqb c ":" then Some (EmptyString, r)
      else match splitColon r with
           | Some (a, b) => Some (String c a, b)
           | None => None
           end
  end.

Definition parseNat (s : string) : option nat :=
  match s with
  | EmptyString => None
  | _ => option_map Nat.of_uint (NilZero.uint_of_string s)
  end.

(** A slot start time ["HH:MM"], as minutes after midnight. *)
Definition parseSlot (slot : string) : option Z :=
  match splitColon slot with
  | Some (hh, mm) =>
      match parseNat hh, parseNat mm with
      | Some h, Some m =>
          if andb (Nat.ltb h 24) (Nat.ltb m 60)
          then Some (Z.of_nat (h * 60 + m))
          else None
      | _, _ => None
      end
  | None => None
  end.

Definition twoDigits (n : nat) : string :=
  if Nat.ltb n 10 then "0" ++ natToString n else natToString n.

(** Modelled from the spec: [formatSlot] of @/lib/helper, which is not under
    src/.  The spec has it format a slot start time for display given the
    timezone and the hour format: ["h:mm AM"] / ["h:mm PM"] for 12h,
    ["HH:mm"] for 24h.  A slot is a UTC wall-clock time moved into the
    zone; text that is no time is displayed as it is. *)
Definition formatSlot (slot : string) (tz : string) (h : HourType) : string :=
  match parseSlot slot with
  | Some t =>
      let local := Z.to_nat ((t + utcOffset tz) mod 1440)%Z in
      let hh := Nat.div local 60 in
      let mm := Nat.modulo local 60 in
      match h with
      | h12 =>
          natToString (if Nat.eqb (Nat.modulo hh 12) 0 then 12
                       else Nat.modulo hh 12)
          ++ ":" ++ twoDigits mm ++ (if Nat.ltb hh 12 then " AM" else " PM")
      | h24 => twoDigits hh ++ ":" ++ twoDigits mm
      end
  | None => slot
  end.

(** Modelled from the spec: [decodeSlot] of @/lib/helper, which is not under
    src/.  It turns the stored slot into its readable form, the same text
    [formatSlot] displays; an absent slot stays absent. *)
Definition decodeSlot (encodedSlot : option string) (tz : string)
  (h : HourType) : option string :=
  match encodedSlot with
  | Some s => Some (formatSlot s tz h)
  | None => None
  end.

(** *** The mutators of the booking state *)

(** Modelled from the spec: the mutators returned by [useBookingState] of
    @/hooks/use-booking-state, which is not under src/.  The booking state
    holds the selected date, the selected slot, the timezone and the hour
    format, and exposes one mutator for each; the next-step callback leaves
    the state of this step as it is. *)
Definition handleSelectDate (d : CalendarDate) (st : BookingState)
  : BookingState :=
  {| timezone := timezone st; hourType := hourType st;
     selectedDate := Some d; selectedSlot := selectedSlot st |}.

Definition handleSelectSlot (s : option string) (st : BookingState)
  : BookingState :=
  {| timezone := timezone st; hourType := hourType st;
     selectedDate := selectedDate st; selectedSlot := s |}.

Definition setHourType (h : HourType) (st : BookingState) : BookingState :=
  {| timezone := timezone st; hourType := h;
     selectedDate := selectedDate st; selectedSlot := selectedSlot st |}.

Definition handleNext (st : BookingState) : BookingState := st.

(** *** Sample data *)

Definition monday : CalendarDate := mkDate 2024 1 15.
Definition tuesday : CalendarDate := mkDate 2024 1 16.
Definition sunday : CalendarDate := mkDate 2024 1 14.

Definition noProps : Props := mkProps "evt-1" None None.

Definition fresh : BookingState := mkState "UTC" h12 None None.

Definition onDate (d : CalendarDate) : BookingState :=
  mkState "UTC" h12 (Some d) None.

Definition onSlot (d : CalendarDate) (s : string) : BookingState :=
  mkState "UTC" h12 (Some d) (Some s).

(** The answer the source's comment shows, with a second MONDAY entry. *)
Definition week : list DayAvailability :=
  [ mkDay "MONDAY" true ["09:00"; "10:00"; "11:00"];
    mkDay "TUESDAY" false [];
    mkDay "MONDAY" false ["15:00"] ].

(** A day that is switched off but still lists slots. *)
Definition closedWithSlots : list DayAvailability :=
  [ mkDay "MONDAY" false ["10:00"; "09:00"; "10:00"] ].

(** A day whose first two slots are shown with the same text. *)
Definition twins : list DayAvailability :=
  [ mkDay "MONDAY" true ["09:00"; "9:00"; "10:00"] ].

(** An answer that spells the day in mixed case. *)
Definition mixedCase : list DayAvailability :=
  [ mkDay "Monday" true ["09:00"]; mkDay "tuesday" true ["10:00"] ].

(** One entry per day, and the same entries the other way round. *)
Definition twoDays : list DayAvailability :=
  [ mkDay "MONDAY" true ["09:00"; "10:00"]; mkDay "TUESDAY" false [] ].

Definition twoDaysSwapped : list DayAvailability :=
  [ mkDay "TUESDAY" false []; mkDay "MONDAY" true ["09:00"; "10:00"] ].

(** [week] with every flag turned over, and [week] with other slots. *)
Definition weekFlagsFlipped : list DayAvailability :=
  [ mkDay "MONDAY" false ["09:00"; "10:00"; "11:00"];
    mkDay "TUESDAY" true [];
    mkDay "MONDAY" true ["15:00"] ].

Definition weekOtherSlots : list DayAvailability :=
  [ mkDay "MONDAY" true [];
    mkDay "TUESDAY" false ["08:00"];
    mkDay "MONDAY" false [] ].

Definition loaded (l : list DayAvailability) : QueryResult :=
  mkQuery (Some (mkResponse (Some l))) false false None.

Definition pending : QueryResult := mkQuery None true false None.

Definition failed : QueryResult :=
  mkQuery None false true (Some "Network Error").

End Collab.

(** * Properties *)

(** ** Searching the schedule *)

Section Search.

Variable dow : string.

Let matches (d : DayAvailability) : bool := String.eqb (day d) dow.

Lemma find_no_entry (l : list DayAvailability) :
  noEntryFor dow l -> find matches l = None.
Proof.
  induction 1 as [|d l Hd _ IH]; simpl; [reflexivity|].
  unfold matches at 1.
  destruct (String.eqb_spec (day d) dow) as [E|_]; [contradiction|exact IH].
Qed.

Lemma find_first_entry (l : list DayAvailability) (e : DayAvailability) :
  firstEntryFor dow l e -> find matches l = Some e.
Proof.
  intros (pre & post & -> & Hpre & He).
  induction Hpre as [|d pre Hd _ IH]; simpl; unfold matches at 1.
  - rewrite He, String.eqb_refl. reflexivity.
  - destruct (String.eqb_spec (day d) dow) as [E|_]; [contradiction|exact IH].
Qed.

Lemma find_cases (l : list DayAvailability) :
  (exists e, firstEntryFor dow l e /\ find matches l = Some e)
  \/ (noEntryFor dow l /\ find matches l = None).
Proof.
  induction l as [|d l IH]; simpl.
  - right. split; [constructor|reflexivity].
  - unfold matches at 1 3.
    destruct (String.eqb_spec (day d) dow) as [E|N].
    + left. exists d. split; [|reflexivity].
      exists [], l. repeat split; [constructor|exact E].
    + destruct IH as [(e & (pre & post & -> & Hpre & He) & Hf)|[Hn Hf]].
      * left. exists e. split; [|exact Hf].
        exists (d :: pre), post. repeat split; [constructor; assumption|exact He].
      * right. split; [constructor; assumption|exact Hf].
Qed.

Lemma firstEntryFor_unique (l : list DayAvailability) (e1 e2 : DayAvailability) :
  firstEntryFor dow l e1 -> firstEntryFor dow l e2 -> e1 = e2.
Proof.
  intros H1 H2.
  apply find_first_entry in H1, H2. congruence.
Qed.

Lemma firstEntryFor_not_noEntry (l : list DayAvailability) (e : DayAvailability) :
  firstEntryFor dow l e -> noEntryFor dow l -> False.
Proof.
  intros H1 H2.
  apply find_first_entry in H1. apply find_no_entry in H2. congruence.
Qed.

End Search.

(** ** The slot filter and the calendar predicate *)

Section Filter.

Variable JsDate : Type.
Variable toDate : CalendarDate -> string -> JsDate.
Variable format : JsDate -> string -> string.

Local Abbreviation dayOfWeek := (dayOfWeek toDate format).
Local Abbreviation timeSlots := (timeSlots toDate format).
Local Abbreviation isDateUnavailable := (isDateUnavailable toDate format).

Lemma timeSlots_of_first_entry (st : BookingState)
  (avail : list DayAvailability) (sel : CalendarDate) (e : DayAvailability) :
  selectedDate st = Some sel ->
  firstEntryFor (dayOfWeek sel (timezone st)) avail e ->
  timeSlots st avail = slots e.
Proof.
  intros Hsel He. unfold BookingCalendar.timeSlots. rewrite Hsel. cbv zeta.
  rewrite (find_first_entry _ _ _ He). reflexivity.
Qed.

Lemma timeSlots_of_no_entry (st : BookingState)
  (avail : list DayAvailability) (sel : CalendarDate) :
  selectedDate st = Some sel ->
  noEntryFor (dayOfWeek sel (timezone st)) avail ->
  timeSlots st avail = [].
Proof.
  intros Hsel Hn. unfold BookingCalendar.timeSlots. rewrite Hsel. cbv zeta.
  rewrite (find_no_entry _ _ Hn). reflexivity.
Qed.

Lemma timeSlots_no_date (st : BookingState) (avail : list DayAvailability) :
  selectedDate st = None -> timeSlots st avail = [].
Proof.
  intros Hsel. unfold BookingCalendar.timeSlots. rewrite Hsel. reflexivity.
Qed.

Lemma isDateUnavailable_of_first_entry (st : BookingState)
  (avail : list DayAvailability) (date : CalendarDate) (e : DayAvailability) :
  firstEntryFor (dayOfWeek date (timezone st)) avail e ->
  isDateUnavailable st avail date = negb (isAvailable e).
Proof.
  intros He. unfold BookingCalendar.isDateUnavailable. cbv zeta.
  rewrite (find_first_entry _ _ _ He). reflexivity.
Qed.

Lemma isDateUnavailable_of_no_entry (st : BookingState)
  (avail : list DayAvailability) (date : CalendarDate) :
  noEntryFor (dayOfWeek date (timezone st)) avail ->
  isDateUnavailable st avail date = true.
Proof.
  intros Hn. unfold BookingCalendar.isDateUnavailable. cbv zeta.
  rewrite (find_no_entry _ _ Hn). reflexivity.
Qed.

(** C1.  The slot filter is total and does exactly this: with no selected
    date it answers the empty list; with a selected date it takes the
    weekday name [format(selectedDate.toDate(timezone), "EEEE")] in upper
    case, and either the schedule has a first entry for that name and the
    answer is that entry's [slots], the very list, or the schedule has no
    entry for it and the answer is the empty list. *)
Theorem timeSlots_first_entry_verbatim (st : BookingState)
  (avail : list DayAvailability) :
  match selectedDate st with
  | None => timeSlots st avail = []
  | Some sel =>
      let dow := toUpperCase (format (toDate sel (timezone st)) "EEEE") in
      (exists e, firstEntryFor dow avail e /\ timeSlots st avail = slots e)
      \/ (noEntryFor dow avail /\ timeSlots st avail = [])
  end.
Proof.
  destruct (selectedDate st) as [sel|] eqn:Hsel.
  - cbv zeta.
    destruct (find_cases (dayOfWeek sel (timezone st)) avail)
      as [(e & He & _)|[Hn _]].
    + left. exists e. split; [exact He|].
      exact (timeSlots_of_first_entry st avail sel e Hsel He).
    + right. split; [exact Hn|].
      exact (timeSlots_of_no_entry st avail sel Hsel Hn).
  - exact (timeSlots_no_date st avail Hsel).
Qed.

(** C2, as amended.  When the first entry for the selected date's weekday
    has [isAvailable] false, the slot filter still answers that entry's
    [slots]: the flag is not read.  The answer is empty exactly when the
    entry lists no slot. *)
Theorem timeSlots_ignores_isAvailable (st : BookingState)
  (avail : list DayAvailability) (sel : CalendarDate) (e : DayAvailability) :
  selectedDate st = Some sel ->
  firstEntryFor (dayOfWeek sel (timezone st)) avail e ->
  isAvailable e = false ->
  timeSlots st avail = slots e
  /\ (timeSlots st avail = [] <-> slots e = []).
Proof.
  intros Hsel He _.
  rewrite (timeSlots_of_first_entry st avail sel e Hsel He).
  split; [reflexivity|tauto].
Qed.

(** C3.  The calendar predicate takes the weekday name
    [format(date.toDate(timezone), "EEEE")] of the candidate date, in upper
    case.  It answers [true] (disabled) exactly when the schedule has no
    entry for that name or its first entry for it has [isAvailable] false,
    and [false] exactly when its first entry for it has [isAvailable]
    true. *)
Theorem isDateUnavailable_iff (st : BookingState)
  (avail : list DayAvailability) (date : CalendarDate) :
  let dow := toUpperCase (format (toDate date (timezone st)) "EEEE") in
  (isDateUnavailable st avail date = true <->
     noEntryFor dow avail
     \/ exists e, firstEntryFor dow avail e /\ isAvailable e = false)
  /\ (isDateUnavailable st avail date = false <->
        exists e, firstEntryFor dow avail e /\ isAvailable e = true).
Proof.
  cbv zeta.
  change (toUpperCase (format (toDate date (timezone st)) "EEEE"))
    with (dayOfWeek date (timezone st)).
  destruct (find_cases (dayOfWeek date (timezone st)) avail)
    as [(e & He & _)|[Hn _]].
  - rewrite (isDateUnavailable_of_first_entry st avail date e He).
    split; split.
    + intros Hb. right. exists e. split; [exact He|].
      destruct (isAvailable e); [discriminate|reflexivity].
    + intros [Hn|(e' & He' & Hb)].
      * destruct (firstEntryFor_not_noEntry _ _ _ He Hn).
      * rewrite (firstEntryFor_unique _ _ _ _ He He'), Hb. reflexivity.
    + intros Hb. exists e. split; [exact He|].
      destruct (isAvailable e); [reflexivity|discriminate].
    + intros (e' & He' & Hb).
      rewrite (firstEntryFor_unique _ _ _ _ He He'), Hb. reflexivity.
  - rewrite (isDateUnavailable_of_no_entry st avail date Hn).
    split; split.
    + intros _. left. exact Hn.
    + reflexivity.
    + discriminate.
    + intros (e & He & _). destruct (firstEntryFor_not_noEntry _ _ _ He Hn).
Qed.

(** C9.  When the schedule holds two entries [e] and [e'] for one weekday,
    [e] being the first for it, the slot filter answers the slots of [e]
    and the calendar predicate tests the flag of [e]; both answer what they
    answer on the schedule cut after [e], so [e'] and every other later
    entry is ignored. *)
Theorem first_entry_governs (st : BookingState) (dow : string)
  (pre mid post : list DayAvailability) (e e' : DayAvailability) :
  noEntryFor dow pre -> day e = dow -> day e' = dow ->
  let avail := pre ++ e :: mid ++ e' :: post in
  (forall sel, selectedDate st = Some sel ->
     dayOfWeek sel (timezone st) = dow ->
     timeSlots st avail = slots e
     /\ timeSlots st avail = timeSlots st (pre ++ [e]))
  /\ (forall date, dayOfWeek date (timezone st) = dow ->
        isDateUnavailable st avail date = negb (isAvailable e)
        /\ isDateUnavailable st avail date
           = isDateUnavailable st (pre ++ [e]) date).
Proof.
  intros Hpre He _ avail.
  assert (Hlong : firstEntryFor dow avail e)
    by (exists pre, (mid ++ e' :: post); auto).
  assert (Hshort : firstEntryFor dow (pre ++ [e]) e)
    by (exists pre, []; auto).
  split.
  - intros sel Hsel Hdow. rewrite <- Hdow in Hlong, Hshort.
    rewrite (timeSlots_of_first_entry st avail sel e Hsel Hlong).
    rewrite (timeSlots_of_first_entry st _ sel e Hsel Hshort).
    split; reflexivity.
  - intros date Hdow. rewrite <- Hdow in Hlong, Hshort.
    rewrite (isDateUnavailable_of_first_entry st avail date e Hlong).
    rewrite (isDateUnavailable_of_first_entry st _ date e Hshort).
    split; reflexivity.
Qed.

End Filter.

(** ** The filter on concrete schedules *)

Section FilterExamples.

Import Collab.

Local Abbreviation timeSlots := (timeSlots toDate format).
Local Abbreviation isDateUnavailable := (isDateUnavailable toDate format).
Local Abbreviation dayOfWeek := (dayOfWeek toDate format).

Example dayOfWeek_monday : dayOfWeek monday "UTC" = "MONDAY".
Proof. reflexivity. Qed.

Example timeSlots_week_monday :
  timeSlots (onDate monday) week = ["09:00"; "10:00"; "11:00"].
Proof. reflexivity. Qed.

Example timeSlots_week_sunday : timeSlots (onDate sunday) week = [].
Proof. reflexivity. Qed.

Example timeSlots_week_no_date : timeSlots fresh week = [].
Proof. reflexivity. Qed.

Example isDateUnavailable_week :
  map (isDateUnavailable fresh week) [sunday; monday; tuesday]
  = [true; false; true].
Proof. reflexivity. Qed.

(** C2, counterexample.  Monday 2024-01-15 on a schedule whose only MONDAY
    entry is switched off and lists three slots: the filter answers the
    three slots, unsorted and with the repeated one, not the empty list. *)
Lemma timeSlots_unavailable_day_not_empty :
  let e := mkDay "MONDAY" false ["10:00"; "09:00"; "10:00"] in
  selectedDate (onDate monday) = Some monday
  /\ firstEntryFor (dayOfWeek monday (timezone (onDate monday)))
       closedWithSlots e
  /\ isAvailable e = false
  /\ timeSlots (onDate monday) closedWithSlots = ["10:00"; "09:00"; "10:00"]
  /\ timeSlots (onDate monday) closedWithSlots <> [].
Proof.
  cbv zeta. split; [reflexivity|]. split.
  - exists [], []. repeat split; constructor.
  - repeat split; [discriminate].
Qed.

Lemma timeSlots_ignores_isAvailable_witness :
  timeSlots (onDate monday) closedWithSlots = ["10:00"; "09:00"; "10:00"]
  /\ (timeSlots (onDate monday) closedWithSlots = []
      <-> ["10:00"; "09:00"; "10:00"] = []).
Proof.
  apply (timeSlots_ignores_isAvailable CalendarDate toDate format
           (onDate monday) closedWithSlots monday
           (mkDay "MONDAY" false ["10:00"; "09:00"; "10:00"])).
  - reflexivity.
  - exists [], []. repeat split; constructor.
  - reflexivity.
Defined.

Lemma first_entry_governs_witness :
  (forall sel, selectedDate (onDate monday) = Some sel ->
     dayOfWeek sel "UTC" = "MONDAY" ->
     timeSlots (onDate monday) week = ["09:00"; "10:00"; "11:00"]
     /\ timeSlots (onDate monday) week
        = timeSlots (onDate monday)
            [mkDay "MONDAY" true ["09:00"; "10:00"; "11:00"]])
  /\ (forall date, dayOfWeek date "UTC" = "MONDAY" ->
        isDateUnavailable (onDate monday) week date = negb true
        /\ isDateUnavailable (onDate monday) week date
           = isDateUnavailable (onDate monday)
               [mkDay "MONDAY" true ["09:00"; "10:00"; "11:00"]] date).
Proof.
  apply (first_entry_governs CalendarDate toDate format (onDate monday)
           "MONDAY" [] [mkDay "TUESDAY" false []] []
           (mkDay "MONDAY" true ["09:00"; "10:00"; "11:00"])
           (mkDay "MONDAY" false ["15:00"])).
  - constructor.
  - reflexivity.
  - reflexivity.
Defined.

End FilterExamples.

(** ** The rendered tree and the selection flow *)

Lemma nth_error_mapiFrom {A B : Type} (f : A -> nat -> B) (l : list A)
  (k i : nat) :
  nth_error (mapiFrom f k l) i
  = option_map (fun a => f a (k + i)) (nth_error l i).
Proof.
  revert k i. induction l as [|a l IH]; intros k [|i]; simpl; try reflexivity.
  - rewrite Nat.add_0_r. reflexivity.
  - rewrite IH. rewrite Nat.add_succ_r. reflexivity.
Qed.

Lemma nth_error_mapi {A B : Type} (f : A -> nat -> B) (l : list A) (i : nat) :
  nth_error (mapi f l) i = option_map (fun a => f a i) (nth_error l i).
Proof. unfold mapi. rewrite nth_error_mapiFrom. reflexivity. Qed.

Section Flow.

Variable JsDate : Type.
Variable toDate : CalendarDate -> string -> JsDate.
Variable format : JsDate -> string -> string.
Variable formatSlot : string -> string -> HourType -> string.
Variable decodeSlot : option string -> string -> HourType -> option string.
Variable handleSelectDate : CalendarDate -> BookingState -> BookingState.
Variable handleSelectSlot : option string -> BookingState -> BookingState.
Variable handleNext : BookingState -> BookingState.
Variable setHourType : HourType -> BookingState -> BookingState.

Local Abbreviation timeSlots := (timeSlots toDate format).
Local Abbreviation isDateUnavailable := (isDateUnavailable toDate format).
Local Abbreviation renderSlot := (renderSlot formatSlot decodeSlot).
Local Abbreviation selectedTime := (selectedTime decodeSlot).
Local Abbreviation slotItems := (slotItems toDate format formatSlot decodeSlot).
Local Abbreviation render := (render toDate format formatSlot decodeSlot).
Local Abbreviation run :=
  (run handleSelectDate handleSelectSlot handleNext setHourType).
Local Abbreviation step :=
  (step toDate format formatSlot decodeSlot
     handleSelectDate handleSelectSlot handleNext setHourType).

(** What the component relies on from the hook's mutators. *)
Hypothesis selectSlot_null :
  forall st, selectedSlot (handleSelectSlot None st) = None.
Hypothesis selectSlot_present :
  forall s st, selectedSlot (handleSelectSlot (Some s) st) <> None.
Hypothesis selectSlot_frame :
  forall s st,
    selectedDate (handleSelectSlot s st) = selectedDate st
    /\ timezone (handleSelectSlot s st) = timezone st
    /\ hourType (handleSelectSlot s st) = hourType st.
Hypothesis selectDate_keeps_slot :
  forall d st, selectedSlot (handleSelectDate d st) = selectedSlot st.
Hypothesis next_keeps_slot :
  forall st, selectedSlot (handleNext st) = selectedSlot st.
Hypothesis setHourType_keeps_slot :
  forall h st, selectedSlot (setHourType h st) = selectedSlot st.

(** Decoding the slot a click stored gives the text the slot is shown with. *)
Hypothesis decode_stored :
  forall s st,
    decodeSlot (selectedSlot (handleSelectSlot (Some s) st))
      (timezone st) (hourType st)
    = Some (formatSlot s (timezone st) (hourType st)).

Lemma nth_error_slotItems (st : BookingState) (avail : list DayAvailability)
  (i : nat) :
  nth_error (slotItems st avail) i
  = option_map (fun slot => renderSlot st slot i)
      (nth_error (timeSlots st avail) i).
Proof. unfold BookingCalendar.slotItems. apply nth_error_mapi. Qed.

Lemma handlerOf_cases (props : Props) (q : QueryResult) (st : BookingState)
  (e : Event) (cs : list Call) :
  handlerOf (render props st q) e = Some cs ->
  (exists d, e = ChangeDate d /\ cs = handleChangeDate d)
  \/ (exists h, e = ClickHour h /\ cs = [CallSetHourType h])
  \/ (exists i slot, e = ClickSlot i
        /\ nth_error (timeSlots st (availability q)) i = Some slot
        /\ cs = [CallSelectSlot (Some slot)])
  \/ (exists i, e = ClickNext i /\ cs = [CallNext]).
Proof.
  destruct e as [d|h|i|i]; simpl.
  - intros [= <-]. left. exists d. split; reflexivity.
  - destruct (selectedDate st); simpl; [|discriminate].
    intros [= <-]. right; left. exists h. destruct h; split; reflexivity.
  - destruct (selectedDate st) eqn:Hsel; simpl; [|discriminate].
    rewrite nth_error_slotItems.
    destruct (nth_error (timeSlots st (availability q)) i) as [slot|] eqn:Hn;
      simpl; [|discriminate].
    intros [= <-]. right; right; left. exists i, slot.
    repeat split. exact Hn.
  - destruct (selectedDate st); simpl; [|discriminate].
    rewrite nth_error_slotItems.
    destruct (nth_error (timeSlots st (availability q)) i); simpl;
      [|discriminate].
    intros [= <-]. right; right; right. exists i. split; reflexivity.
Qed.

(** C4.  For every date, the currently selected one included, the
    date-change handler first calls [handleSelectSlot(null)] and then
    [handleSelectDate(date)]; the calendar's change event always runs it,
    and the state it leaves holds no selected slot. *)
Theorem handleChangeDate_clears_slot (props : Props) (q : QueryResult)
  (st : BookingState) (newDate : CalendarDate) :
  handleChangeDate newDate = [CallSelectSlot None; CallSelectDate newDate]
  /\ step props q st (ChangeDate newDate)
     = Some (handleSelectDate newDate (handleSelectSlot None st))
  /\ selectedSlot (handleSelectDate newDate (handleSelectSlot None st)) = None.
Proof.
  split; [reflexivity|]. split; [reflexivity|].
  rewrite selectDate_keeps_slot. apply selectSlot_null.
Qed.

(** C5.  While the query has no data, or its data is the empty schedule,
    the component works on the empty list: the slot filter answers the
    empty list whatever the selected date, the panel, when rendered, holds
    no slot button, and the calendar is told that every date is
    unavailable. *)
Theorem empty_schedule_offers_nothing (props : Props) (q : QueryResult)
  (st : BookingState) :
  data q = None \/ optChainOpt (data q) resp_data = Some [] ->
  availability q = []
  /\ timeSlots st (availability q) = []
  /\ (forall p, panel (render props st q) = Some p -> items p = [])
  /\ (forall date, calIsDateUnavailable (render props st q) date = true).
Proof.
  intros H.
  assert (Ha : availability q = []).
  { unfold availability. destruct H as [-> | ->]; reflexivity. }
  assert (Ht : timeSlots st [] = []).
  { unfold BookingCalendar.timeSlots. destruct (selectedDate st); reflexivity. }
  split; [exact Ha|]. rewrite Ha. split; [exact Ht|]. split.
  - intros p. simpl. destruct (selectedDate st); [|discriminate].
    intros [= <-]. simpl. rewrite Ha.
    unfold BookingCalendar.slotItems. rewrite Ht. reflexivity.
  - intros date. simpl. rewrite Ha. reflexivity.
Qed.

(** C8.  Whatever element of the rendered tree an event comes from, its
    handler calls [handleSelectSlot] with [null] only when the event is a
    date change, and with a slot only when it is the click on the button of
    that slot of the day's list; and an event that turns a present slot
    into an absent one is a date change. *)
Theorem slot_only_cleared_by_date_change (props : Props) (q : QueryResult)
  (st : BookingState) (e : Event) (cs : list Call) :
  handlerOf (render props st q) e = Some cs ->
  (forall x, In (CallSelectSlot x) cs ->
     match x with
     | None => exists d, e = ChangeDate d
     | Some slot =>
         exists i, e = ClickSlot i
           /\ nth_error (timeSlots st (availability q)) i = Some slot
     end)
  /\ (selectedSlot st <> None -> selectedSlot (run cs st) = None ->
      exists d, e = ChangeDate d).
Proof.
  intros H.
  destruct (handlerOf_cases props q st e cs H)
    as [(d & -> & ->)|[(h & -> & ->)|[(i & slot & -> & Hn & ->)|(i & -> & ->)]]].
  - split.
    + intros x [Hx|[Hx|[]]]; [|discriminate].
      injection Hx as <-. exists d. reflexivity.
    + intros _ _. exists d. reflexivity.
  - split.
    + intros x [Hx|[]]. discriminate.
    + simpl. rewrite setHourType_keeps_slot. intros Hp Ha. contradiction.
  - split.
    + intros x [Hx|[]]. injection Hx as <-. exists i. split; [reflexivity|exact Hn].
    + simpl. intros _ Ha. destruct (selectSlot_present slot st Ha).
  - split.
    + intros x [Hx|[]]. discriminate.
    + simpl. rewrite next_keeps_slot. intros Hp Ha. contradiction.
Qed.

Lemma strictEq_true (a : option string) (b : string) :
  strictEq a b = true <-> a = Some b.
Proof.
  destruct a as [x|]; simpl.
  - rewrite String.eqb_eq. split; congruence.
  - split; discriminate.
Qed.

Lemma displayedSelected_renderSlot (st : BookingState) (slot : string)
  (i : nat) :
  displayedSelected (renderSlot st slot i)
  <-> selectedTime st = Some (formatSlot slot (timezone st) (hourType st)).
Proof.
  rewrite <- strictEq_true. unfold displayedSelected. simpl.
  destruct (strictEq _ _).
  - split; [reflexivity|]. intros _. split; reflexivity.
  - split; [|discriminate]. intros [H _]. discriminate H.
Qed.

Lemma timeSlots_same_date (st st' : BookingState)
  (avail : list DayAvailability) :
  selectedDate st' = selectedDate st -> timezone st' = timezone st ->
  timeSlots st' avail = timeSlots st avail.
Proof.
  intros Hd Ht. unfold BookingCalendar.timeSlots. rewrite Hd, Ht. reflexivity.
Qed.

(** C10.  A rendered slot is displayed as selected (overlay slid in, plain
    button transparent) exactly when [decodeSlot(selectedSlot, timezone,
    hourType)] is the text [formatSlot(slot, timezone, hourType)] it is
    shown with.  So when two different slots of the day's list are shown
    with the same text, the click on the button of one of them runs
    [handleSelectSlot] on it, and in the tree rendered from the state that
    click leaves both are displayed as selected. *)
Theorem selected_display_follows_text :
  (forall st slot i,
     displayedSelected (renderSlot st slot i)
     <-> selectedTime st = Some (formatSlot slot (timezone st) (hourType st)))
  /\ (forall props q st i j a b,
        nth_error (timeSlots st (availability q)) i = Some a ->
        nth_error (timeSlots st (availability q)) j = Some b ->
        a <> b ->
        formatSlot a (timezone st) (hourType st)
        = formatSlot b (timezone st) (hourType st) ->
        let st' := handleSelectSlot (Some a) st in
        step props q st (ClickSlot i) = Some st'
        /\ nth_error (slotItems st' (availability q)) i
           = Some (renderSlot st' a i)
        /\ nth_error (slotItems st' (availability q)) j
           = Some (renderSlot st' b j)
        /\ displayedSelected (renderSlot st' a i)
        /\ displayedSelected (renderSlot st' b j)).
Proof.
  split; [exact displayedSelected_renderSlot|].
  intros props q st i j a b Ha Hb _ Hfmt st'.
  assert (Hstep : step props q st (ClickSlot i) = Some st').
  { unfold BookingCalendar.step. simpl.
    destruct (selectedDate st) as [sel|] eqn:Hsel; simpl.
    - rewrite nth_error_slotItems, Ha. reflexivity.
    - unfold BookingCalendar.timeSlots in Ha. rewrite Hsel in Ha.
      destruct i; discriminate Ha. }
  destruct (selectSlot_frame (Some a) st) as (Hd & Ht & Hh).
  fold st' in Hd, Ht, Hh.
  assert (Hsel : selectedTime st'
                 = Some (formatSlot a (timezone st) (hourType st))).
  { unfold BookingCalendar.selectedTime. rewrite Ht, Hh.
    apply decode_stored. }
  split; [exact Hstep|].
  rewrite !nth_error_slotItems.
  rewrite (timeSlots_same_date st st' (availability q) Hd Ht), Ha, Hb.
  repeat split; try apply displayedSelected_renderSlot;
    rewrite Hsel, Ht, Hh; congruence.
Qed.

(** Whatever the query answered, the error alert receives the query's error
    flag and error as they are, and a query without data is rendered on the
    empty schedule. *)
Lemma errorAlert_gets_query_error (props : Props) (q : QueryResult)
  (st : BookingState) :
  errorAlert (render props st q) = (isError q, error q)
  /\ (data q = None -> availability q = []).
Proof.
  split; [reflexivity|]. intros H. unfold availability. rewrite H. reflexivity.
Qed.

End Flow.

(** ** The flow on concrete states *)

Section FlowExamples.

Import Collab.

Local Abbreviation timeSlots := (timeSlots toDate format).
Local Abbreviation slotItems := (slotItems toDate format formatSlot decodeSlot).
Local Abbreviation render := (render toDate format formatSlot decodeSlot).
Local Abbreviation run :=
  (run handleSelectDate handleSelectSlot handleNext setHourType).
Local Abbreviation step :=
  (step toDate format formatSlot decodeSlot
     handleSelectDate handleSelectSlot handleNext setHourType).

(** C7.  With the timezone UTC and the hour format 12h, the slot ["09:00"]
    is displayed as ["9:00 AM"] and the slot ["10:00"] as ["10:00 AM"], by
    the formatter and on the buttons rendered for a day with these two
    slots. *)
Theorem formatSlot_utc_12h :
  formatSlot "09:00" "UTC" h12 = "9:00 AM"
  /\ formatSlot "10:00" "UTC" h12 = "10:00 AM"
  /\ map buttonLabel
       (slotItems (mkState "UTC" h12 (Some monday) None)
          [mkDay "MONDAY" true ["09:00"; "10:00"]])
     = ["9:00 AM"; "10:00 AM"].
Proof. repeat split. Qed.

Example formatSlot_24h : formatSlot "14:30" "UTC" h24 = "14:30".
Proof. reflexivity. Qed.

Example formatSlot_afternoon : formatSlot "14:30" "UTC" h12 = "2:30 PM".
Proof. reflexivity. Qed.

(** Re-selecting the selected date. *)
Lemma handleChangeDate_clears_slot_witness :
  handleChangeDate monday = [CallSelectSlot None; CallSelectDate monday]
  /\ step noProps (loaded week) (onSlot monday "10:00") (ChangeDate monday)
     = Some (handleSelectDate monday
               (handleSelectSlot None (onSlot monday "10:00")))
  /\ selectedSlot (handleSelectDate monday
                     (handleSelectSlot None (onSlot monday "10:00"))) = None.
Proof.
  apply (handleChangeDate_clears_slot CalendarDate toDate format
           formatSlot decodeSlot
           handleSelectDate handleSelectSlot handleNext setHourType).
  - intros st. reflexivity.
  - intros d st. reflexivity.
Defined.

Lemma empty_schedule_offers_nothing_witness :
  availability pending = []
  /\ timeSlots (onDate monday) (availability pending) = []
  /\ (forall p, panel (render noProps (onDate monday) pending) = Some p ->
        items p = [])
  /\ (forall date,
        calIsDateUnavailable (render noProps (onDate monday) pending) date
        = true).
Proof.
  apply (empty_schedule_offers_nothing CalendarDate toDate format
           formatSlot decodeSlot noProps pending (onDate monday)).
  left. reflexivity.
Defined.

(** The date change on a state with a selected slot. *)
Lemma slot_only_cleared_by_date_change_witness :
  (forall x, In (CallSelectSlot x) (handleChangeDate tuesday) ->
     match x with
     | None => exists d, ChangeDate tuesday = ChangeDate d
     | Some slot =>
         exists i, ChangeDate tuesday = ClickSlot i
           /\ nth_error
                (timeSlots (onSlot monday "10:00") (availability (loaded week)))
                i = Some slot
     end)
  /\ (selectedSlot (onSlot monday "10:00") <> None ->
      selectedSlot (run (handleChangeDate tuesday) (onSlot monday "10:00"))
      = None ->
      exists d, ChangeDate tuesday = ChangeDate d).
Proof.
  apply (slot_only_cleared_by_date_change CalendarDate toDate format
           formatSlot decodeSlot
           handleSelectDate handleSelectSlot handleNext setHourType)
    with (props := noProps) (q := loaded week).
  - intros s st. discriminate.
  - intros st. reflexivity.
  - intros h st. reflexivity.
  - reflexivity.
Defined.

Example click_slot_stores_it :
  step noProps (loaded week) (onSlot monday "10:00") (ClickSlot 2)
  = Some (onSlot monday "11:00").
Proof. reflexivity. Qed.

Example click_missing_slot :
  step noProps (loaded week) (onSlot monday "10:00") (ClickSlot 3) = None.
Proof. reflexivity. Qed.

Example twins_same_text :
  formatSlot "09:00" "UTC" h12 = formatSlot "9:00" "UTC" h12.
Proof. reflexivity. Qed.

(** Clicking ["09:00"] on a day that also lists ["9:00"]. *)
Lemma selected_display_follows_text_witness :
  let st' := handleSelectSlot (Some "09:00") (onDate monday) in
  step noProps (loaded twins) (onDate monday) (ClickSlot 0) = Some st'
  /\ nth_error (slotItems st' (availability (loaded twins))) 0
     = Some (renderSlot formatSlot decodeSlot st' "09:00" 0)
  /\ nth_error (slotItems st' (availability (loaded twins))) 1
     = Some (renderSlot formatSlot decodeSlot st' "9:00" 1)
  /\ displayedSelected (renderSlot formatSlot decodeSlot st' "09:00" 0)
  /\ displayedSelected (renderSlot formatSlot decodeSlot st' "9:00" 1).
Proof.
  apply (proj2 (selected_display_follows_text CalendarDate toDate format
                  formatSlot decodeSlot
                  handleSelectDate handleSelectSlot handleNext setHourType
                  (fun s st => conj eq_refl (conj eq_refl eq_refl))
                  (fun s st => eq_refl))
           noProps (loaded twins) (onDate monday) 0 1 "09:00" "9:00").
  - reflexivity.
  - reflexivity.
  - discriminate.
  - reflexivity.
Defined.

End FlowExamples.

(** * Further properties of the component *)

(** ** What the schedule search depends on *)

Lemma upperAscii_idem (c : ascii) : upperAscii (upperAscii c) = upperAscii c.
Proof.
  destruct c as [[] [] [] [] [] [] [] []]; reflexivity.
Qed.

Lemma toUpperCase_idem (s : string) :
  toUpperCase (toUpperCase s) = toUpperCase s.
Proof.
  induction s as [|c s IH]; simpl; [reflexivity|].
  rewrite upperAscii_idem, IH. reflexivity.
Qed.

Lemma find_hd_filter {A : Type} (p : A -> bool) (l : list A) :
  find p l = hd_error (filter p l).
Proof.
  induction l as [|a l IH]; simpl; [reflexivity|].
  destruct (p a); [reflexivity|exact IH].
Qed.

Lemma find_unique_day_perm (dow : string) (l l' : list DayAvailability) :
  Permutation l l' -> NoDup (map day l) ->
  find (fun d => String.eqb (day d) dow) l
  = find (fun d => String.eqb (day d) dow) l'.
Proof.
  induction 1 as [|x l l' Hp IH|x y l|l l' l'' H1 IH1 H2 IH2]; intros Hnd.
  - reflexivity.
  - simpl. destruct (String.eqb (day x) dow); [reflexivity|].
    apply IH. simpl in Hnd. inversion Hnd; assumption.
  - simpl.
    destruct (String.eqb_spec (day y) dow) as [Ey|_];
      destruct (String.eqb_spec (day x) dow) as [Ex|_]; try reflexivity.
    simpl in Hnd. inversion Hnd as [|? ? Hin _]; subst.
    exfalso. apply Hin. left. congruence.
  - rewrite (IH1 Hnd). apply IH2.
    apply (Permutation_NoDup (Permutation_map day H1) Hnd).
Qed.

Lemma find_flags_only (dow : string) (l l' : list DayAvailability) :
  map (fun e => (day e, isAvailable e)) l
  = map (fun e => (day e, isAvailable e)) l' ->
  optChain (find (fun d => String.eqb (day d) dow) l) isAvailable
  = optChain (find (fun d => String.eqb (day d) dow) l') isAvailable.
Proof.
  revert l'. induction l as [|a l IH]; intros [|b l']; simpl;
    try discriminate; [reflexivity|].
  intros [= Hd Hf Hr]. rewrite Hd.
  destruct (String.eqb (day b) dow); simpl; [congruence|exact (IH l' Hr)].
Qed.

Lemma find_slots_only (dow : string) (l l' : list DayAvailability) :
  map (fun e => (day e, slots e)) l = map (fun e => (day e, slots e)) l' ->
  optChain (find (fun d => String.eqb (day d) dow) l) slots
  = optChain (find (fun d => String.eqb (day d) dow) l') slots.
Proof.
  revert l'. induction l as [|a l IH]; intros [|b l']; simpl;
    try discriminate; [reflexivity|].
  intros [= Hd Hf Hr]. rewrite Hd.
  destruct (String.eqb (day b) dow); simpl; [congruence|exact (IH l' Hr)].
Qed.

Section Schedule.

Variable JsDate : Type.
Variable toDate : CalendarDate -> string -> JsDate.
Variable format : JsDate -> string -> string.

Local Abbreviation dayOfWeek := (dayOfWeek toDate format).
Local Abbreviation timeSlots := (timeSlots toDate format).
Local Abbreviation isDateUnavailable := (isDateUnavailable toDate format).

Lemma dayOfWeek_upper (date : CalendarDate) (tz : string) :
  toUpperCase (dayOfWeek date tz) = dayOfWeek date tz.
Proof. unfold BookingCalendar.dayOfWeek. apply toUpperCase_idem. Qed.

(** X1.  The weekday name is upper-cased before the comparison with [===],
    the entries' [day] is not: an entry whose [day] is not already in upper
    case matches no date.  On a schedule made of such entries the slot
    filter answers the empty list and every date is unavailable. *)
Theorem day_not_upper_case_never_matches (st : BookingState)
  (avail : list DayAvailability) :
  Forall (fun e => toUpperCase (day e) <> day e) avail ->
  timeSlots st avail = []
  /\ forall date, isDateUnavailable st avail date = true.
Proof.
  intros Hlow.
  assert (Hno : forall date tz, noEntryFor (dayOfWeek date tz) avail).
  { intros date tz. unfold noEntryFor.
    apply (Forall_impl _ (P := fun e => toUpperCase (day e) <> day e));
      [|exact Hlow].
    intros e He Heq. apply He. rewrite Heq. apply dayOfWeek_upper. }
  split.
  - destruct (selectedDate st) as [sel|] eqn:Hsel.
    + exact (timeSlots_of_no_entry _ toDate format st avail sel Hsel (Hno _ _)).
    + exact (timeSlots_no_date _ toDate format st avail Hsel).
  - intros date.
    exact (isDateUnavailable_of_no_entry _ toDate format st avail date
             (Hno _ _)).
Qed.

(** X2.  Only the entries for the weekday count, in their own order: two
    schedules that hold the same entries for the selected date's weekday, in
    the same order, give the same slots, wherever the entries for the other
    weekdays stand; and likewise for the calendar predicate and the
    candidate date's weekday. *)
Theorem other_weekdays_do_not_matter (st : BookingState)
  (avail avail' : list DayAvailability) :
  (forall sel, selectedDate st = Some sel ->
     filter (fun d => String.eqb (day d) (dayOfWeek sel (timezone st))) avail
     = filter (fun d => String.eqb (day d) (dayOfWeek sel (timezone st)))
         avail' ->
     timeSlots st avail = timeSlots st avail')
  /\ (forall date,
        filter (fun d => String.eqb (day d) (dayOfWeek date (timezone st)))
          avail
        = filter (fun d => String.eqb (day d) (dayOfWeek date (timezone st)))
            avail' ->
        isDateUnavailable st avail date = isDateUnavailable st avail' date).
Proof.
  split.
  - intros sel Hsel Hf. unfold BookingCalendar.timeSlots. rewrite Hsel.
    cbv zeta. rewrite !find_hd_filter, Hf. reflexivity.
  - intros date Hf. unfold BookingCalendar.isDateUnavailable. cbv zeta.
    rewrite !find_hd_filter, Hf. reflexivity.
Qed.

(** X3.  When no two entries of the schedule share a [day], the order of
    the entries is irrelevant: any reordering of the schedule gives the same
    slots for every selected date and the same answer of the calendar
    predicate for every date. *)
Theorem unique_days_order_irrelevant (st : BookingState)
  (avail avail' : list DayAvailability) :
  NoDup (map day avail) -> Permutation avail avail' ->
  timeSlots st avail = timeSlots st avail'
  /\ forall date, isDateUnavailable st avail date
                  = isDateUnavailable st avail' date.
Proof.
  intros Hnd Hp. split.
  - unfold BookingCalendar.timeSlots. destruct (selectedDate st); [|reflexivity].
    cbv zeta. rewrite (find_unique_day_perm _ _ _ Hp Hnd). reflexivity.
  - intros date. unfold BookingCalendar.isDateUnavailable. cbv zeta.
    rewrite (find_unique_day_perm _ _ _ Hp Hnd). reflexivity.
Qed.

(** X4.  The slot filter never reads [isAvailable] and the calendar
    predicate never reads [slots]: schedules that agree on every entry's
    [day] and [slots] give the same slots whatever their flags, and
    schedules that agree on every entry's [day] and [isAvailable] give the
    same answer of the predicate whatever their slots. *)
Theorem filter_and_predicate_read_apart (st : BookingState)
  (avail avail' : list DayAvailability) :
  (map (fun e => (day e, slots e)) avail
   = map (fun e => (day e, slots e)) avail' ->
   timeSlots st avail = timeSlots st avail')
  /\ (map (fun e => (day e, isAvailable e)) avail
      = map (fun e => (day e, isAvailable e)) avail' ->
      forall date, isDateUnavailable st avail date
                   = isDateUnavailable st avail' date).
Proof.
  split.
  - intros H. unfold BookingCalendar.timeSlots.
    destruct (selectedDate st); [|reflexivity].
    cbv zeta. rewrite (find_slots_only _ _ _ H). reflexivity.
  - intros H date. unfold BookingCalendar.isDateUnavailable. cbv zeta.
    rewrite (find_flags_only _ _ _ H). reflexivity.
Qed.

End Schedule.

(** ** The slot list of the panel *)

Lemma length_mapiFrom {A B : Type} (f : A -> nat -> B) (k : nat) (l : list A) :
  length (mapiFrom f k l) = length l.
Proof.
  revert k. induction l as [|a l IH]; intros k; simpl; [reflexivity|].
  rewrite IH. reflexivity.
Qed.

Lemma map_mapiFrom {A B C : Type} (g : B -> C) (f : A -> nat -> B) (k : nat)
  (l : list A) :
  map g (mapiFrom f k l) = mapiFrom (fun a i => g (f a i)) k l.
Proof.
  revert k. induction l as [|a l IH]; intros k; simpl; [reflexivity|].
  rewrite IH. reflexivity.
Qed.

Lemma mapiFrom_no_index {A B : Type} (h : A -> B) (k : nat) (l : list A) :
  mapiFrom (fun a _ => h a) k l = map h l.
Proof.
  revert k. induction l as [|a l IH]; intros k; simpl; [reflexivity|].
  rewrite IH. reflexivity.
Qed.

Lemma mapiFrom_index {A : Type} (k : nat) (l : list A) :
  mapiFrom (fun _ i => i) k l = seq k (length l).
Proof.
  revert k. induction l as [|a l IH]; intros k; simpl; [reflexivity|].
  rewrite IH. reflexivity.
Qed.

Lemma Forall_mapiFrom {A B : Type} (P : B -> Prop) (f : A -> nat -> B)
  (k : nat) (l : list A) :
  (forall a i, P (f a i)) -> Forall P (mapiFrom f k l).
Proof.
  intros H. revert k. induction l as [|a l IH]; intros k; simpl;
    constructor; [apply H|apply IH].
Qed.

Section Tree.

Variable JsDate : Type.
Variable toDate : CalendarDate -> string -> JsDate.
Variable format : JsDate -> string -> string.
Variable formatSlot : string -> string -> HourType -> string.
Variable decodeSlot : option string -> string -> HourType -> option string.
Variable handleSelectDate : CalendarDate -> BookingState -> BookingState.
Variable handleSelectSlot : option string -> BookingState -> BookingState.
Variable handleNext : BookingState -> BookingState.
Variable setHourType : HourType -> BookingState -> BookingState.

Local Abbreviation dayOfWeek := (dayOfWeek toDate format).
Local Abbreviation timeSlots := (timeSlots toDate format).
Local Abbreviation isDateUnavailable := (isDateUnavailable toDate format).
Local Abbreviation renderSlot := (renderSlot formatSlot decodeSlot).
Local Abbreviation selectedTime := (selectedTime decodeSlot).
Local Abbreviation slotItems := (slotItems toDate format formatSlot decodeSlot).
Local Abbreviation render := (render toDate format formatSlot decodeSlot).
Local Abbreviation run :=
  (run handleSelectDate handleSelectSlot handleNext setHourType).
Local Abbreviation step :=
  (step toDate format formatSlot decodeSlot
     handleSelectDate handleSelectSlot handleNext setHourType).

(** X5.  The slot list follows the filtered slots position by position: as
    many items as slots, the keys are the indices 0, 1, ..., both labels of
    item [i] are the formatted text of slot [i], and the button of item [i]
    stores slot [i] itself, the raw string and not its formatted text. *)
Theorem slotItems_follow_timeSlots (st : BookingState)
  (avail : list DayAvailability) :
  let ts := timeSlots st avail in
  let text := fun slot => formatSlot slot (timezone st) (hourType st) in
  length (slotItems st avail) = length ts
  /\ map itemKey (slotItems st avail) = seq 0 (length ts)
  /\ map buttonLabel (slotItems st avail) = map text ts
  /\ map overlayLabel (slotItems st avail) = map text ts
  /\ map onClickSlot (slotItems st avail)
     = map (fun slot => [CallSelectSlot (Some slot)]) ts
  /\ map onClickNext (slotItems st avail) = map (fun _ => [CallNext]) ts.
Proof.
  cbv zeta. unfold BookingCalendar.slotItems, mapi.
  rewrite length_mapiFrom, !map_mapiFrom. simpl.
  rewrite mapiFrom_index, !mapiFrom_no_index.
  repeat split; reflexivity.
Qed.

(** X6.  A click on the slot button at position [i] runs
    [handleSelectSlot] on the slot at position [i] of the filtered slots and
    nothing else; there is no such button, and so no transition, exactly
    when [i] is not a position of that list, which includes every [i] when
    no date is selected. *)
Theorem click_slot_stores_listed_slot (props : Props) (q : QueryResult)
  (st : BookingState) (i : nat) :
  step props q st (ClickSlot i)
  = option_map (fun slot => handleSelectSlot (Some slot) st)
      (nth_error (timeSlots st (availability q)) i)
  /\ (step props q st (ClickSlot i) = None
      <-> length (timeSlots st (availability q)) <= i)
  /\ (selectedDate st = None -> step props q st (ClickSlot i) = None).
Proof.
  assert (E : step props q st (ClickSlot i)
              = option_map (fun slot => handleSelectSlot (Some slot) st)
                  (nth_error (timeSlots st (availability q)) i)).
  { unfold BookingCalendar.step. simpl.
    destruct (selectedDate st) as [sel|] eqn:Hsel; simpl.
    - rewrite (nth_error_slotItems _ toDate format formatSlot decodeSlot).
      destruct (nth_error _ i); reflexivity.
    - rewrite (timeSlots_no_date _ toDate format st _ Hsel).
      destruct i; reflexivity. }
  split; [exact E|]. split.
  - rewrite E, <- nth_error_None.
    destruct (nth_error _ i); simpl; split; congruence.
  - intros Hsel. rewrite E, (timeSlots_no_date _ toDate format st _ Hsel).
    destruct i; reflexivity.
Qed.

(** X7.  Every handler of the rendered tree calls only the mutator of its
    own element: [handleSelectDate] is called by the calendar's change
    event alone and with the date the calendar passed, [setHourType] by an
    hour button alone and with that button's format, [handleNext] by a Next
    button alone. *)
Theorem handlers_call_their_own_mutator (props : Props) (q : QueryResult)
  (st : BookingState) (e : Event) (cs : list Call) :
  handlerOf (render props st q) e = Some cs ->
  forall c, In c cs ->
    match c with
    | CallSelectDate d => e = ChangeDate d
    | CallSetHourType h => e = ClickHour h
    | CallNext => exists i, e = ClickNext i
    | CallSelectSlot _ => True
    end.
Proof.
  intros H c Hc.
  destruct (handlerOf_cases _ toDate format formatSlot decodeSlot
              props q st e cs H)
    as [(d & -> & ->)|[(h & -> & ->)|[(i & slot & -> & _ & ->)|(i & -> & ->)]]].
  - destruct Hc as [<-|[<-|[]]]; [exact I|reflexivity].
  - destruct Hc as [<-|[]]. reflexivity.
  - destruct Hc as [<-|[]]. exact I.
  - destruct Hc as [<-|[]]. exists i. reflexivity.
Qed.

(** X8.  When the slots of the day are shown with pairwise different
    texts, at most one item of the slot list is displayed as selected. *)
Theorem distinct_texts_one_selected (st : BookingState)
  (avail : list DayAvailability) (i j : nat) (ia ib : SlotItem) :
  NoDup (map (fun slot => formatSlot slot (timezone st) (hourType st))
           (timeSlots st avail)) ->
  nth_error (slotItems st avail) i = Some ia ->
  nth_error (slotItems st avail) j = Some ib ->
  displayedSelected ia -> displayedSelected ib ->
  i = j.
Proof.
  intros Hnd Hi Hj Ha Hb.
  rewrite (nth_error_slotItems _ toDate format formatSlot decodeSlot) in Hi, Hj.
  destruct (nth_error (timeSlots st avail) i) as [a|] eqn:Ea; [|discriminate].
  destruct (nth_error (timeSlots st avail) j) as [b|] eqn:Eb; [|discriminate].
  simpl in Hi, Hj. injection Hi as <-. injection Hj as <-.
  apply (displayedSelected_renderSlot formatSlot decodeSlot) in Ha, Hb.
  rewrite Ha in Hb. injection Hb as Hab.
  apply (proj1 (NoDup_nth_error _) Hnd).
  - rewrite length_map. apply nth_error_Some. rewrite Ea. discriminate.
  - rewrite !nth_error_map, Ea, Eb. simpl. rewrite Hab. reflexivity.
Qed.

(** X9.  Every item of the slot list is in one of two looks: overlay slid
    in and plain button transparent, or overlay slid out and plain button
    opaque; the two class switches never disagree. *)
Theorem item_overlay_and_button_agree (st : BookingState)
  (avail : list DayAvailability) :
  Forall (fun it =>
            (overlayClass it = "translate-x-0 opacity-100"
             /\ buttonClass it = "opacity-0")
            \/ (overlayClass it = "translate-x-full opacity-0"
                /\ buttonClass it = "opacity-100"))
    (slotItems st avail).
Proof.
  unfold BookingCalendar.slotItems, mapi. apply Forall_mapiFrom.
  intros slot i. simpl. destruct (strictEq _ _).
  - left. split; reflexivity.
  - right. split; reflexivity.
Qed.

(** X10.  The panel is rendered exactly when a date is selected, whatever
    the query holds (no data, an error, an empty schedule).  When it is
    rendered its heading is the selected date formatted with ["EEEE d"] and
    exactly one of the two hour buttons is active, the 12h one exactly when
    the hour format is 12h. *)
Theorem panel_shown_iff_date_selected (props : Props) (st : BookingState)
  (q : QueryResult) :
  (panel (render props st q) = None <-> selectedDate st = None)
  /\ forall p, panel (render props st q) = Some p ->
       (exists sel, selectedDate st = Some sel
          /\ heading p = format (toDate sel (timezone st)) "EEEE d")
       /\ active12 p = negb (active24 p)
       /\ (active12 p = true <-> hourType st = h12)
       /\ (active24 p = true <-> hourType st = h24).
Proof.
  simpl. destruct (selectedDate st) as [sel|].
  - split; [split; discriminate|].
    intros p [= <-]. simpl. split; [exists sel; split; reflexivity|].
    destruct (hourType st); simpl; repeat split; congruence.
  - split; [split; reflexivity|]. intros p. discriminate.
Qed.

(** What the hour toggle relies on from [setHourType]. *)
Hypothesis setHourType_frame :
  forall h st,
    selectedDate (setHourType h st) = selectedDate st
    /\ timezone (setHourType h st) = timezone st.

(** X11.  Switching the hour format only relabels.  A click on an hour
    button runs [setHourType] with that button's format; as long as that
    leaves the date and the timezone alone, the tree rendered next offers
    the same slots, its slot buttons store the same raw slots, and the same
    dates are unavailable. *)
Theorem hour_toggle_only_relabels (props : Props) (q : QueryResult)
  (st st' : BookingState) (h : HourType) :
  step props q st (ClickHour h) = Some st' ->
  st' = setHourType h st
  /\ timeSlots st' (availability q) = timeSlots st (availability q)
  /\ map onClickSlot (slotItems st' (availability q))
     = map onClickSlot (slotItems st (availability q))
  /\ forall date, isDateUnavailable st' (availability q) date
                  = isDateUnavailable st (availability q) date.
Proof.
  intros Hstep.
  assert (Hst : st' = setHourType h st).
  { unfold BookingCalendar.step in Hstep. simpl in Hstep.
    destruct (selectedDate st); simpl in Hstep; [|discriminate].
    destruct h; injection Hstep as <-; reflexivity. }
  destruct (setHourType_frame h st) as [Hd Ht]. rewrite <- Hst in Hd, Ht.
  assert (Hts : timeSlots st' (availability q) = timeSlots st (availability q)).
  { unfold BookingCalendar.timeSlots. rewrite Hd, Ht. reflexivity. }
  split; [exact Hst|]. split; [exact Hts|]. split.
  - unfold BookingCalendar.slotItems, mapi.
    rewrite !map_mapiFrom. simpl. rewrite !mapiFrom_no_index, Hts. reflexivity.
  - intros date. unfold BookingCalendar.isDateUnavailable. rewrite Ht.
    reflexivity.
Qed.

(** What a date change relies on from the hook and from [decodeSlot]. *)
Hypothesis selectSlot_stores_null :
  forall st, selectedSlot (handleSelectSlot None st) = None.
Hypothesis selectSlot_keeps_zone :
  forall s st, timezone (handleSelectSlot s st) = timezone st.
Hypothesis selectDate_sets :
  forall d st,
    selectedDate (handleSelectDate d st) = Some d
    /\ timezone (handleSelectDate d st) = timezone st
    /\ selectedSlot (handleSelectDate d st) = selectedSlot st.
Hypothesis decode_null :
  forall tz h, decodeSlot None tz h = None.

(** X12.  After a date change, with mutators that store what they are
    given and a [decodeSlot] that answers null for null, the tree rendered
    next has a panel; its slot buttons are those of the new date, the slots
    of the first entry for the new date's weekday when there is one; and
    none of its items is displayed as selected. *)
Theorem date_change_shows_new_day (props : Props) (q : QueryResult)
  (st st' : BookingState) (d : CalendarDate) :
  step props q st (ChangeDate d) = Some st' ->
  selectedDate st' = Some d
  /\ (exists p, panel (render props st' q) = Some p
        /\ map onClickSlot (items p)
           = map (fun slot => [CallSelectSlot (Some slot)])
               (timeSlots st' (availability q))
        /\ Forall (fun it => ~ displayedSelected it) (items p))
  /\ (forall e, firstEntryFor (dayOfWeek d (timezone st)) (availability q) e ->
        timeSlots st' (availability q) = slots e)
  /\ (noEntryFor (dayOfWeek d (timezone st)) (availability q) ->
      timeSlots st' (availability q) = []).
Proof.
  intros Hstep.
  assert (Hst : st' = handleSelectDate d (handleSelectSlot None st)).
  { unfold BookingCalendar.step in Hstep. simpl in Hstep.
    injection Hstep as <-. reflexivity. }
  destruct (selectDate_sets d (handleSelectSlot None st)) as (Hd & Ht & Hs).
  rewrite <- Hst in Hd, Ht, Hs.
  rewrite selectSlot_keeps_zone in Ht. rewrite selectSlot_stores_null in Hs.
  split; [exact Hd|]. split; [|split].
  - simpl. rewrite Hd. eexists. split; [reflexivity|]. simpl. split.
    + unfold BookingCalendar.slotItems, mapi.
      rewrite map_mapiFrom. simpl. apply mapiFrom_no_index.
    + unfold BookingCalendar.slotItems, mapi. apply Forall_mapiFrom.
      intros slot i Hsel.
      apply (displayedSelected_renderSlot formatSlot decodeSlot) in Hsel.
      unfold BookingCalendar.selectedTime in Hsel.
      rewrite Hs, decode_null in Hsel. discriminate.
  - intros e He. rewrite <- Ht in He.
    exact (timeSlots_of_first_entry _ toDate format st' _ d e Hd He).
  - intros Hn. rewrite <- Ht in Hn.
    exact (timeSlots_of_no_entry _ toDate format st' _ d Hd Hn).
Qed.

End Tree.

(** ** The further properties on concrete states *)

Section TreeExamples.

Import Collab.

Local Abbreviation dayOfWeek := (dayOfWeek toDate format).
Local Abbreviation timeSlots := (timeSlots toDate format).
Local Abbreviation isDateUnavailable := (isDateUnavailable toDate format).
Local Abbreviation slotItems := (slotItems toDate format formatSlot decodeSlot).
Local Abbreviation render := (render toDate format formatSlot decodeSlot).
Local Abbreviation step :=
  (step toDate format formatSlot decodeSlot
     handleSelectDate handleSelectSlot handleNext setHourType).

Lemma day_not_upper_case_never_matches_witness :
  timeSlots (onDate monday) mixedCase = []
  /\ forall date, isDateUnavailable (onDate monday) mixedCase date = true.
Proof.
  apply (day_not_upper_case_never_matches CalendarDate toDate format
           (onDate monday) mixedCase).
  repeat constructor; intros H; vm_compute in H; discriminate H.
Defined.

Lemma other_weekdays_do_not_matter_witness :
  timeSlots (onDate monday) week
  = timeSlots (onDate monday)
      [ mkDay "MONDAY" true ["09:00"; "10:00"; "11:00"];
        mkDay "MONDAY" false ["15:00"];
        mkDay "SUNDAY" true ["07:00"] ].
Proof.
  apply (proj1 (other_weekdays_do_not_matter CalendarDate toDate format
                  (onDate monday) week _) monday).
  - reflexivity.
  - reflexivity.
Defined.

Lemma unique_days_order_irrelevant_witness :
  timeSlots (onDate monday) twoDays = timeSlots (onDate monday) twoDaysSwapped
  /\ forall date, isDateUnavailable (onDate monday) twoDays date
                  = isDateUnavailable (onDate monday) twoDaysSwapped date.
Proof.
  apply (unique_days_order_irrelevant CalendarDate toDate format
           (onDate monday) twoDays twoDaysSwapped).
  - repeat constructor; simpl; intuition discriminate.
  - apply perm_swap.
Defined.

Lemma filter_and_predicate_read_apart_witness :
  timeSlots (onDate monday) week = timeSlots (onDate monday) weekFlagsFlipped
  /\ forall date, isDateUnavailable (onDate monday) week date
                  = isDateUnavailable (onDate monday) weekOtherSlots date.
Proof.
  split.
  - apply (proj1 (filter_and_predicate_read_apart CalendarDate toDate format
                    (onDate monday) week weekFlagsFlipped)).
    reflexivity.
  - apply (proj2 (filter_and_predicate_read_apart CalendarDate toDate format
                    (onDate monday) week weekOtherSlots)).
    reflexivity.
Defined.

Lemma handlers_call_their_own_mutator_witness :
  handlerOf (render noProps (onDate monday) (loaded week)) (ChangeDate tuesday)
  = Some [CallSelectSlot None; CallSelectDate tuesday]
  /\ ChangeDate tuesday = ChangeDate tuesday.
Proof.
  split; [reflexivity|].
  apply (handlers_call_their_own_mutator CalendarDate toDate format
           formatSlot decodeSlot noProps (loaded week) (onDate monday)
           (ChangeDate tuesday) [CallSelectSlot None; CallSelectDate tuesday]
           eq_refl (CallSelectDate tuesday)).
  right. left. reflexivity.
Defined.

Lemma distinct_texts_one_selected_witness :
  NoDup (map (fun slot => formatSlot slot "UTC" h12)
           (timeSlots (onSlot monday "10:00") week))
  /\ nth_error (slotItems (onSlot monday "10:00") week) 1
     = Some (renderSlot formatSlot decodeSlot (onSlot monday "10:00")
               "10:00" 1)
  /\ 1 = 1.
Proof.
  assert (Hnd : NoDup (map (fun slot => formatSlot slot "UTC" h12)
                         (timeSlots (onSlot monday "10:00") week))).
  { vm_compute. repeat constructor; simpl; intuition discriminate. }
  split; [exact Hnd|]. split; [reflexivity|].
  apply (distinct_texts_one_selected CalendarDate toDate format
           formatSlot decodeSlot (onSlot monday "10:00") week 1 1
           (renderSlot formatSlot decodeSlot (onSlot monday "10:00") "10:00" 1)
           (renderSlot formatSlot decodeSlot (onSlot monday "10:00") "10:00" 1)).
  - exact Hnd.
  - reflexivity.
  - reflexivity.
  - split; reflexivity.
  - split; reflexivity.
Defined.

Lemma hour_toggle_only_relabels_witness :
  let st := onSlot monday "10:00" in
  let st' := mkState "UTC" h24 (Some monday) (Some "10:00") in
  st' = setHourType h24 st
  /\ timeSlots st' (availability (loaded week))
     = timeSlots st (availability (loaded week))
  /\ map onClickSlot (slotItems st' (availability (loaded week)))
     = map onClickSlot (slotItems st (availability (loaded week)))
  /\ forall date, isDateUnavailable st' (availability (loaded week)) date
                  = isDateUnavailable st (availability (loaded week)) date.
Proof.
  cbv zeta.
  apply (hour_toggle_only_relabels CalendarDate toDate format
           formatSlot decodeSlot
           handleSelectDate handleSelectSlot handleNext setHourType)
    with (props := noProps).
  - intros h st. split; reflexivity.
  - reflexivity.
Defined.

Example hour_toggle_relabels :
  map buttonLabel
    (slotItems (mkState "UTC" h24 (Some monday) (Some "10:00")) week)
  = ["09:00"; "10:00"; "11:00"]
  /\ map buttonLabel (slotItems (onSlot monday "10:00") week)
     = ["9:00 AM"; "10:00 AM"; "11:00 AM"].
Proof. split; reflexivity. Qed.

Lemma date_change_shows_new_day_witness :
  let st' := onDate monday in
  selectedDate st' = Some monday
  /\ (exists p, panel (render noProps st' (loaded week)) = Some p
        /\ map onClickSlot (items p)
           = map (fun slot => [CallSelectSlot (Some slot)])
               (timeSlots st' (availability (loaded week)))
        /\ Forall (fun it => ~ displayedSelected it) (items p))
  /\ (forall e,
        firstEntryFor (dayOfWeek monday "UTC") (availability (loaded week)) e ->
        timeSlots st' (availability (loaded week)) = slots e)
  /\ (noEntryFor (dayOfWeek monday "UTC") (availability (loaded week)) ->
      timeSlots st' (availability (loaded week)) = []).
Proof.
  cbv zeta.
  apply (date_change_shows_new_day CalendarDate toDate format
           formatSlot decodeSlot
           handleSelectDate handleSelectSlot handleNext setHourType)
    with (props := noProps) (st := onSlot tuesday "10:00").
  - intros st. reflexivity.
  - intros s st. reflexivity.
  - intros d st. repeat split.
  - intros tz h. reflexivity.
  - reflexivity.
Defined.

End TreeExamples.

(** ** An invariant of the selection flow *)

Section Invariant.

Variable JsDate : Type.
Variable toDate : CalendarDate -> string -> JsDate.
Variable format : JsDate -> string -> string.
Variable formatSlot : string -> string -> HourType -> string.
Variable decodeSlot : option string -> string -> HourType -> option string.
Variable handleSelectDate : CalendarDate -> BookingState -> BookingState.
Variable handleSelectSlot : option string -> BookingState -> BookingState.
Variable handleNext : BookingState -> BookingState.
Variable setHourType : HourType -> BookingState -> BookingState.

Local Abbreviation step :=
  (step toDate format formatSlot decodeSlot
     handleSelectDate handleSelectSlot handleNext setHourType).
Local Abbreviation steps :=
  (steps toDate format formatSlot decodeSlot
     handleSelectDate handleSelectSlot handleNext setHourType).

(** What the flow relies on: [handleSelectDate] leaves a date selected and
    the other three mutators leave the selected date alone.  Nothing is
    asked of the form in which a slot is stored. *)
Hypothesis selectDate_selects :
  forall d st, selectedDate (handleSelectDate d st) <> None.
Hypothesis selectSlot_keeps_date :
  forall s st, selectedDate (handleSelectSlot s st) = selectedDate st.
Hypothesis next_keeps_date :
  forall st, selectedDate (handleNext st) = selectedDate st.
Hypothesis setHourType_keeps_date :
  forall h st, selectedDate (setHourType h st) = selectedDate st.

Lemma step_leaves_date_selected (props : Props) (q : QueryResult)
  (st st' : BookingState) (e : Event) :
  step props q st e = Some st' -> selectedDate st' <> None.
Proof.
  unfold BookingCalendar.step.
  destruct e as [d|h|i|i]; simpl.
  - intros [= <-]. apply selectDate_selects.
  - destruct (selectedDate st) as [sel|] eqn:Hsel; simpl; [|discriminate].
    destruct h; intros [= <-]; simpl;
      rewrite setHourType_keeps_date, Hsel; discriminate.
  - destruct (selectedDate st) as [sel|] eqn:Hsel; simpl; [|discriminate].
    rewrite (nth_error_slotItems _ toDate format formatSlot decodeSlot).
    destruct (nth_error _ i) as [slot|]; simpl; [|discriminate].
    intros [= <-]. rewrite selectSlot_keeps_date, Hsel. discriminate.
  - destruct (selectedDate st) as [sel|] eqn:Hsel; simpl; [|discriminate].
    rewrite (nth_error_slotItems _ toDate format formatSlot decodeSlot).
    destruct (nth_error _ i) as [slot|]; simpl; [|discriminate].
    intros [= <-]. rewrite next_keeps_date, Hsel. discriminate.
Qed.

Lemma steps_leave_date_selected (props : Props) (q : QueryResult)
  (es : list Event) (st st' : BookingState) :
  es <> [] -> steps props q st es = Some st' -> selectedDate st' <> None.
Proof.
  revert st. induction es as [|e r IH]; intros st Hne Hsteps;
    [congruence|].
  simpl in Hsteps.
  destruct (step props q st e) as [st1|] eqn:Hstep; [|discriminate].
  destruct r as [|e' r'].
  - simpl in Hsteps. injection Hsteps as <-.
    exact (step_leaves_date_selected props q st st1 e Hstep).
  - apply (IH st1); [discriminate|exact Hsteps].
Qed.

(** X13.  A slot is never selected while no date is.  With a
    [handleSelectDate] that leaves a date selected and other mutators that
    leave the selected date alone, every sequence of user events on the
    rendered tree that starts without a selected slot ends in a state that
    has a selected date whenever it has a selected slot; and every such
    sequence of at least one event ends with a date selected, wherever it
    starts. *)
Theorem no_slot_without_date (props : Props) (q : QueryResult)
  (es : list Event) (st st' : BookingState) :
  steps props q st es = Some st' ->
  (es <> [] -> selectedDate st' <> None)
  /\ (selectedSlot st = None ->
      selectedSlot st' <> None -> selectedDate st' <> None).
Proof.
  intros Hsteps. split.
  - intros Hne. exact (steps_leave_date_selected props q es st st' Hne Hsteps).
  - intros Hnone Hslot. destruct es as [|e r].
    + simpl in Hsteps. injection Hsteps as <-. congruence.
    + apply (steps_leave_date_selected props q (e :: r) st st');
        [discriminate|exact Hsteps].
Qed.

End Invariant.

Section InvariantExamples.

Import Collab.

Local Abbreviation steps :=
  (steps toDate format formatSlot decodeSlot
     handleSelectDate handleSelectSlot handleNext setHourType).

Example steps_pick_then_change_day :
  steps noProps (loaded week) fresh
    [ChangeDate monday; ClickSlot 1; ClickHour h24; ClickNext 1;
     ChangeDate tuesday]
  = Some (mkState "UTC" h24 (Some tuesday) None).
Proof. reflexivity. Qed.

Example steps_slot_without_date :
  steps noProps (loaded week) fresh [ClickSlot 0] = None.
Proof. reflexivity. Qed.

Lemma no_slot_without_date_witness :
  let es := [ChangeDate monday; ClickSlot 1; ClickHour h24] in
  let st' := mkState "UTC" h24 (Some monday) (Some "10:00") in
  steps noProps (loaded week) fresh es = Some st'
  /\ (es <> [] -> selectedDate st' <> None)
  /\ (selectedSlot fresh = None ->
      selectedSlot st' <> None -> selectedDate st' <> None).
Proof.
  cbv zeta. split; [reflexivity|].
  apply (no_slot_without_date CalendarDate toDate format
           formatSlot decodeSlot
           handleSelectDate handleSelectSlot handleNext setHourType)
    with (props := noProps) (q := loaded week).
  - intros d st. discriminate.
  - intros s st. reflexivity.
  - intros st. reflexivity.
  - intros h st. reflexivity.
  - reflexivity.
Defined.

End InvariantExamples.

End BookingCalendar.
